(** * appflotacion: the Streamlit silica-concentration dashboard (main.py)

    A shallow embedding of [main.py].  The script is one top-to-bottom run of
    a Streamlit page: it loads a regression model through a cached loader,
    declares three sliders in the sidebar, and, when the predict button is
    pressed, builds a one-row data frame and calls the model on it.

    The embedding keeps what the script observes and changes:
    - the module namespace, a finite map from names to values; reading a name
      that is not bound raises [NameError], as in Python;
    - the rendered page, the list of Streamlit elements in call order;
    - the [st.cache_resource] memo table of the process;
    - a log of the calls made to [joblib.load] and to [model.predict].
    Exceptions do not roll the state back: what was rendered before a raise
    stays rendered. *)

From Stdlib Require Import ZArith String Ascii List Floats DecimalString Lia.
From stdpp Require Import gmap strings list.
Import ListNotations.

#[local] Set Warnings "-inexact-float".

Local Open Scope Z_scope.
Local Open Scope string_scope.
Local Open Scope list_scope.

(* ===================================================================== *)
(** ** Python values and exceptions *)
(* ===================================================================== *)

(** The exception classes the script can meet.  All of them derive from
    [Exception], and [OtherException] stands for any other class that does;
    the two operating-system errors are siblings under [OSError], so a
    handler for one does not catch the other. *)
Inductive exn_class : Type :=
| NameError
| IndexError
| FileNotFoundError
| PermissionError
| StreamlitAPIException
| OtherException (name : string).

(** An exception instance: its class and the text [str(e)] gives. *)
Record exn : Type := Exn { exn_cls : exn_class; exn_text : string }.

Definition is_FileNotFoundError (e : exn) : bool :=
  match exn_cls e with FileNotFoundError => true | _ => false end.

(** [isinstance(e, Exception)]: every class of [exn_class] derives from
    [Exception]. *)
Definition is_Exception (e : exn) : bool :=
  match exn_cls e with
  | NameError | IndexError | FileNotFoundError | PermissionError
  | StreamlitAPIException | OtherException _ => true
  end.

(** A deserialized predictor is opaque; it is named by an identifier and its
    behaviour is given by the world (see [world] below). *)
Definition model_id := nat.

#[local] Unset Elimination Schemes.
Inductive pyval : Type :=
| VNone
| VInt (z : Z)
| VFloat (f : float)
| VStr (s : string)
| VModule (name : string)
| VFunction (name : string)
| VModel (m : model_id)
| VFrame (columns : list (string * list pyval))
| VSeq (xs : list float)
| VExc (e : exn).
#[local] Set Elimination Schemes.

(** A [pd.DataFrame] built from a dict of columns: the column names in
    insertion order, each with its cells. *)
Definition frame := list (string * list pyval).

Definition is_not_None (v : pyval) : bool :=
  match v with VNone => false | _ => true end.

Definition is_int (v : pyval) : bool :=
  match v with VInt _ => true | _ => false end.

Definition is_float (v : pyval) : bool :=
  match v with VFloat _ => true | _ => false end.

(** [type(v).__name__], for the text of an [AttributeError]. *)
Definition type_name (v : pyval) : string :=
  match v with
  | VNone => "NoneType"
  | VInt _ => "int"
  | VFloat _ => "float"
  | VStr _ => "str"
  | VModule _ => "module"
  | VFunction _ => "function"
  | VModel _ => "object"
  | VFrame _ => "DataFrame"
  | VSeq _ => "list"
  | VExc _ => "Exception"
  end.

(* ===================================================================== *)
(** ** Number formatting: the [:.2f] format specification *)
(* ===================================================================== *)

Module Fmt.

(** [n / d] rounded to the nearest integer, ties to even ([d] positive). *)
Definition round_half_even (n d : Z) : Z :=
  let q := n / d in
  let r := n mod d in
  match 2 * r ?= d with
  | Lt => q
  | Gt => q + 1
  | Eq => if Z.even q then q else q + 1
  end.

(** The finite binary64 value [m * 2^e], in hundredths, correctly rounded. *)
Definition hundredths (m : positive) (e : Z) : Z :=
  if (0 <=? e)%Z then Z.pos m * 100 * 2 ^ e
  else round_half_even (Z.pos m * 100) (2 ^ (- e)).

Definition digit (d : Z) : ascii := ascii_of_nat (48 + Z.to_nat d).

Definition decimal (n : Z) : string := NilZero.string_of_uint (N.to_uint (Z.to_N n)).

(** A non-negative number of hundredths printed with two decimals. *)
Definition fixed2 (h : Z) : string :=
  decimal (h / 100) +:+ "." +:+
  String (digit (h mod 100 / 10)) (String (digit (h mod 10)) "").

Definition sign (neg : bool) : string := if neg then "-" else "".

(** [format(x, '.2f')] for a Python float. *)
Definition format_2f (x : float) : string :=
  match Prim2SF x with
  | S754_nan => "nan"
  | S754_infinity neg => sign neg +:+ "inf"
  | S754_zero neg => sign neg +:+ "0.00"
  | S754_finite neg m e => sign neg +:+ fixed2 (hundredths m e)
  end.

End Fmt.

(* ===================================================================== *)
(** ** The page, the world and the state of a run *)
(* ===================================================================== *)

(** Where an element is placed: the main page, the sidebar
    ([with st.sidebar:]) or an expander ([with st.expander(label):]). *)
Inductive container : Type :=
| Main
| Sidebar
| Expander (label : string).

(** The keyword arguments of one [st.slider] call. *)
Record slider_config : Type := SliderConfig {
  sl_label : string;
  sl_min_value : pyval;
  sl_max_value : pyval;
  sl_value : pyval;
  sl_step : pyval
}.

(** The Streamlit calls of the script, as the elements they put on the page. *)
Inductive element : Type :=
| PageConfig (page_title page_icon layout : string)
| Header (body : string)
| Title (body : string)
| Subheader (body : string)
| Markdown (body : string)
| Caption (body : string)
| Success (body : string)
| Info (body : string)
| Warning (body : string)
| Error (body : string)
| Divider
| SliderWidget (cfg : slider_config)
| ButtonWidget (label : string) (type : string).

Abbreviation placed := (container * element)%type (only parsing).

(** What [joblib.load] finds at a path. *)
Inductive file : Type :=
| Missing                      (* no such file: FileNotFoundError *)
| Unreadable                   (* exists, no read permission: PermissionError *)
| Corrupt (e : exn)            (* deserialization fails with [e] *)
| Artifact (m : model_id).     (* a serialized predictor *)

(** Everything outside the script: the file system, the behaviour of each
    predictor (a function of its argument: predictors are stateless), and
    the positions of the widgets when the run starts. *)
Record world : Type := World {
  fs : string -> file;
  predict : model_id -> pyval -> exn + list float;
  slider_now : string -> pyval;
  button_now : string -> bool
}.

(** Calls that leave the script, in call order. *)
Inductive io_call : Type :=
| JoblibLoad (path : string)
| Predict (m : model_id) (arg : pyval).

Record state : Type := State {
  globals : gmap string pyval;
  page : list placed;
  cursor : container;
  resource_cache : gmap string (pyval * list placed);
  io_log : list io_call
}.

Definition set_globals (g : gmap string pyval) (s : state) : state :=
  State g (page s) (cursor s) (resource_cache s) (io_log s).
Definition set_page (p : list placed) (s : state) : state :=
  State (globals s) p (cursor s) (resource_cache s) (io_log s).
Definition set_cursor (c : container) (s : state) : state :=
  State (globals s) (page s) c (resource_cache s) (io_log s).
Definition set_resource_cache (c : gmap string (pyval * list placed)) (s : state) : state :=
  State (globals s) (page s) (cursor s) c (io_log s).
Definition set_io_log (l : list io_call) (s : state) : state :=
  State (globals s) (page s) (cursor s) (resource_cache s) l.

(* ===================================================================== *)
(** ** The monad of the script: state that survives exceptions *)
(* ===================================================================== *)

Inductive result (A : Type) : Type :=
| Ok (a : A)
| Raise (e : exn).
Arguments Ok {A} a.
Arguments Raise {A} e.

Definition M (A : Type) : Type := state -> result A * state.

#[global] Instance M_ret : MRet M := fun A a s => (Ok a, s).

#[global] Instance M_bind : MBind M := fun A B f c s =>
  match c s with
  | (Ok a, s') => f a s'
  | (Raise e, s') => (Raise e, s')
  end.

Definition raise {A : Type} (e : exn) : M A := fun s => (Raise e, s).

(** [try: body / except <classes matched by handles> as e: handler]. *)
Definition try_except {A : Type} (body : M A) (handles : exn -> bool)
    (handler : exn -> M A) : M A := fun s =>
  match body s with
  | (Raise e, s') => if handles e then handler e s' else (Raise e, s')
  | r => r
  end.

(** Reading a name at module level.  A name that is bound neither in the
    module namespace nor among the builtins raises [NameError]; none of the
    names read through [name] by this script is a builtin. *)
Definition name (x : string) : M pyval := fun s =>
  match globals s !! x with
  | Some v => (Ok v, s)
  | None => (Raise (Exn NameError ("name '" +:+ x +:+ "' is not defined")), s)
  end.

Definition assign (x : string) (v : pyval) : M unit := fun s =>
  (Ok tt, set_globals (<[x := v]> (globals s)) s).

Definition del (x : string) : M unit := fun s =>
  (Ok tt, set_globals (delete x (globals s)) s).

(** Rendering an element in the current container. *)
Definition render (e : element) : M unit := fun s =>
  (Ok tt, set_page (page s ++ [(cursor s, e)]) s).

(** A [with] block over a container: elements of the body go to [c]; the
    previous container is restored on exit, also when the body raises. *)
Definition within {A : Type} (c : container) (body : M A) : M A := fun s =>
  let back := cursor s in
  let '(r, s') := body (set_cursor c s) in
  (r, set_cursor back s').

Definition log_call (c : io_call) : M unit := fun s =>
  (Ok tt, set_io_log (io_log s ++ [c]) s).

(* ===================================================================== *)
(** ** Python numbers: exact comparison *)
(* ===================================================================== *)

(** The exact value of a finite number, as [(m, e)] for [m * 2^e]. *)
Definition num_value (v : pyval) : option (Z * Z) :=
  match v with
  | VInt z => Some (z, 0)
  | VFloat f =>
      match Prim2SF f with
      | S754_zero _ => Some (0, 0)
      | S754_finite neg m e => Some (if neg then Z.neg m else Z.pos m, e)
      | _ => None
      end
  | _ => None
  end.

(** [a <= b] on numbers; Python compares an int with a float exactly. *)
Definition py_le (a b : pyval) : option bool :=
  match num_value a, num_value b with
  | Some (m1, e1), Some (m2, e2) =>
      let e := Z.min e1 e2 in
      Some (m1 * 2 ^ (e1 - e) <=? m2 * 2 ^ (e2 - e))%Z
  | _, _ => None
  end.

(** [min_value <= v <= max_value] for a slider. *)
Definition in_range (c : slider_config) (v : pyval) : option bool :=
  match py_le (sl_min_value c) v, py_le v (sl_max_value c) with
  | Some lo, Some hi => Some (lo && hi)
  | _, _ => None
  end.

(* ===================================================================== *)
(** ** The libraries the script calls *)
(* ===================================================================== *)

(** The errors [open] raises inside [joblib.load]. *)
Definition no_such_file (path : string) : exn :=
  Exn FileNotFoundError ("[Errno 2] No such file or directory: '" +:+ path +:+ "'").

Definition permission_denied (path : string) : exn :=
  Exn PermissionError ("[Errno 13] Permission denied: '" +:+ path +:+ "'").

(** The checks [st.slider] makes on its arguments, in order: [value] is a
    number; [min_value], [max_value] and [step] are all ints or all floats;
    [value] is of their type.  The first that fails gives the
    [StreamlitAPIException] raised. *)
Definition slider_argument_error (min_value max_value value step : pyval)
    : option exn :=
  if negb (is_int value || is_float value) then
    Some (Exn StreamlitAPIException
            "Slider value should either be an int/float/datetime or a list/tuple of 0 to 2 ints/floats/datetimes")
  else if negb ((is_int min_value && is_int max_value && is_int step)
                || (is_float min_value && is_float max_value && is_float step)) then
    Some (Exn StreamlitAPIException
            ("Slider value arguments must be of matching types.
`min_value` has " +:+ type_name min_value +:+ " type.
`max_value` has " +:+ type_name max_value +:+ " type.
`step` has " +:+ type_name step +:+ " type."))
  else if negb (Bool.eqb (is_int value) (is_int min_value)) then
    Some (Exn StreamlitAPIException
            ("Both value and arguments must be of the same type.
`value` has " +:+ type_name value +:+ " type.
`min_value` has " +:+ type_name min_value +:+ " type.
`max_value` has " +:+ type_name max_value +:+ " type."))
  else None.

(** The position an accepted slider returns: the one the user set when it
    is a number of the slider's type within the bounds, the initial [value]
    otherwise. *)
Definition slider_position (c : slider_config) (set : pyval) : pyval :=
  if Bool.eqb (is_int set) (is_int (sl_value c))
     && Bool.eqb (is_float set) (is_float (sl_value c))
     && match in_range c set with Some true => true | _ => false end
  then set
  else sl_value c.

Section Script.

Variable w : world.

(** [joblib.load(path)]: the outcome is decided by the file at [path]. *)
Definition joblib_load (path : string) : M pyval :=
  log_call (JoblibLoad path);;
  match fs w path with
  | Missing => raise (no_such_file path)
  | Unreadable => raise (permission_denied path)
  | Corrupt e => raise e
  | Artifact m => mret (VModel m)
  end.

(** [@st.cache_resource]: the decorated function is memoized for the life of
    the process, keyed by its argument.  On a miss the body runs; if it
    returns, the value is stored together with the elements the body
    rendered.  On a hit the body does not run: the stored elements are
    rendered again and the stored value is returned.  A body that raises
    stores nothing. *)
Definition st_cache_resource (body : string -> M pyval) (arg : string) : M pyval :=
  fun s =>
  match resource_cache s !! arg with
  | Some (v, shown) => (Ok v, set_page (page s ++ shown) s)
  | None =>
      match body arg s with
      | (Ok v, s') =>
          let shown := drop (length (page s)) (page s') in
          (Ok v, set_resource_cache (<[arg := (v, shown)]> (resource_cache s')) s')
      | (Raise e, s') => (Raise e, s')
      end
  end.

(** [st.slider(label, min_value, max_value, value, step)].  Streamlit first
    checks the arguments and raises before it renders anything.  An accepted
    slider is rendered and returns its position, a number of the type of
    its arguments between the bounds; before any interaction that is
    [value]. *)
Definition st_slider (label : string) (min_value max_value value step : pyval)
    : M pyval :=
  match slider_argument_error min_value max_value value step with
  | Some e => raise e
  | None =>
      let c := SliderConfig label min_value max_value value step in
      render (SliderWidget c);;
      mret (slider_position c (slider_now w label))
  end.

Definition st_button (label type : string) : M bool :=
  render (ButtonWidget label type);;
  mret (button_now w label).

(** [model.predict]: the attribute lookup, on whatever [model] is bound
    to. *)
Definition getattr_predict (model : pyval) : M model_id :=
  match model with
  | VModel m => mret m
  | _ =>
      raise (Exn (OtherException "AttributeError")
               ("'" +:+ type_name model +:+ "' object has no attribute 'predict'"))
  end.

(** The call of the bound method [predict] of predictor [m]. *)
Definition call_predict (m : model_id) (arg : pyval) : M (list float) :=
  log_call (Predict m arg);;
  match predict w m arg with
  | inl e => raise e
  | inr xs => mret xs
  end.

(** [xs[0]] on a Python list. *)
Definition subscript0 (xs : list float) : M float :=
  match xs with
  | x :: _ => mret x
  | [] => raise (Exn IndexError "list index out of range")
  end.

(* ===================================================================== *)
(** ** main.py *)
(* ===================================================================== *)

(** Lines 18-25, the body of [load_model]. *)
Definition load_model_body (model_path : string) : M pyval :=
  try_except
    (model ← joblib_load model_path;
     mret model)
    is_FileNotFoundError
    (fun _ =>
       render (Error ("Error: No se encontró el archivo del modelo en "
                      +:+ model_path +:+
                      ". Asegúrate de que el archivo del modelo esté en el directorio correcto."));;
       mret VNone).

(** Line 17: the decorated [load_model]. *)
Definition load_model : string -> M pyval := st_cache_resource load_model_body.

(** Lines 38-44, 48-54 and 58-64: the slider declarations. *)
Definition amine_slider : slider_config :=
  SliderConfig "Caudal de amina (m³/s)"
    (VFloat 241.70) (VFloat 739.30) (VFloat 488.43) (VInt 1).

Definition air_slider : slider_config :=
  SliderConfig "Flujo de aire que ingresa a la columna 1 (m³/s)"
    (VFloat 175.85) (VFloat 372.44) (VFloat 280.13) (VInt 1).

Definition iron_slider : slider_config :=
  SliderConfig "Concentración de Hierro (%)"
    (VFloat 62.51) (VFloat 68.01) (VInt 0) (VInt 1).

Definition slider (c : slider_config) : M pyval :=
  st_slider (sl_label c) (sl_min_value c) (sl_max_value c) (sl_value c) (sl_step c).

(** Lines 31-65, the sidebar. *)
Definition sidebar : M unit :=
  within Sidebar (
    render (Header "⚙️ Parámetros de Entrada");;
    render (Markdown "
    Ajusta los deslizadores para que coincidan con los parametros del proceso de flotación.
    ");;
    flowrate ← slider amine_slider;
    assign "flowrate" flowrate;;
    render (Caption "El flujo de amina es una de las variables más críticas, porque controla la selectividad y la eficiencia de la separación entre sílica y hierro");;
    temperature ← slider air_slider;
    assign "temperature" temperature;;
    render (Caption "El flujo del aire es una de las variables operativas más importantes, porque controla la formación, cantidad y tamaño de burbujas, que se encarga del transporte de las partículas sílice");;
    pressure ← slider iron_slider;
    assign "pressure" pressure;;
    render (Caption "El % de hierro en el concentrado está inversamente relacionado con la calidad de la sílice")).

(** Lines 85-89: the dict display is evaluated left to right, each key
    before its value, and the frame is bound to [df_input]. *)
Definition build_df_input : M unit :=
  c1 ← name "flowrateAmina";
  c2 ← name "flowrate";
  c3 ← name "IronConcentrate";
  assign "df_input"
    (VFrame [("Amina Flow", [c1]);
             ("Flotation Column 01 Air Flow", [c2]);
             ("% Iron Concentrate", [c3])]).

(** Lines 92-99: the [try] around the prediction.  In
    [model.predict(df_input)] the callee [model.predict] is evaluated before
    the argument.  [except Exception as e] binds [e] for the handler and
    unbinds it when the handler ends. *)
Definition try_predict : M unit :=
  try_except
    (model ← name "model";
     predict_of_model ← getattr_predict model;
     df_input ← name "df_input";
     prediction_value ← call_predict predict_of_model df_input;
     assign "prediction_value" (VSeq prediction_value);;
     render (Subheader "📈 Resultado de la Predicción");;
     first ← subscript0 prediction_value;
     render (Success ("**% Concentracion de Sílice Predicho:** `"
                      +:+ Fmt.format_2f first +:+ "%`"));;
     render (Info "Este valor representa el porcentaje estimado del % de la concentración de sílice despues del proceso de flotación."))
    is_Exception
    (fun e =>
       assign "e" (VExc e);;
       render (Error ("Ocurrió un error durante la predicción: " +:+ exn_text e));;
       del "e").

(** Lines 80-101. *)
Definition prediction_logic : M unit :=
  model ← name "model";
  if is_not_None model then
    pressed ← st_button "🚀 Predecir % concentracion de Silice " "primary";
    if pressed : bool then
      build_df_input;;
      try_predict
    else mret tt
  else
    render (Warning "El modelo no pudo ser cargado. Por favor, verifica la ruta del archivo del modelo.").

(** Lines 106-123. *)
Definition about : M unit :=
  within (Expander "ℹ️ Sobre la Aplicación") (
    render (Markdown "
    **¿Cómo funciona?**

    1.  **Datos de Entrada:** Proporcionas los parámetros operativos clave usando los deslizadores en la barra lateral.
    2.  **Predicción:** El modelo de machine learning pre-entrenado recibe estas entradas y las analiza basándose en los patrones que aprendió de datos históricos.
    3.  **Resultado:** La aplicación muestra el % de la concentración de sílice estimado.
    ");;
    render (Markdown "

    **Detalles del Modelo:**

    * **Tipo de Modelo:** `Regression Model` (XGBoost Optimizado)
    * **Propósito:** Predecir el valor continuo del rendimiento de la destilación.
    * **Características Usadas:** Caudal de Amina, Flujo de aire en la columna de flotación 01 y % de Hierro Concentrado.
    * **Fuente de Datos:** Utilizan
    ")).

(** The path line 28 passes to [load_model]. *)
Definition model_file : string := "model_flotacion.joblib".

(** Lines 2-12 and 17-18: the imports, the page configuration and the
    definition of [load_model]. *)
Definition setup : M unit :=
  assign "joblib" (VModule "joblib");;
  assign "st" (VModule "streamlit");;
  assign "pd" (VModule "pandas");;
  render (PageConfig "Predictor del porcentaje de la concentración de sílice" "🧪" "wide");;
  assign "load_model" (VFunction "load_model").

(** Lines 68-76. *)
Definition greeting : M unit :=
  render (Title "🧪 Predictor de la calidad del sílice");;
  render (Markdown "
¡Bienvenido! Esta aplicación utiliza un modelo de machine learning para predecir la calidad de silice en un proceso de flotación aplicado a la industria minera.

**Esta herramienta puede ayudar a los ingenieros de procesos y operadores a:**
- **Optimizar** las condiciones de operación para obtener el máximo rendimiento.
- **Predecir** el impacto de los cambios en el proceso antes de implementarlos.
- **Solucionar** problemas potenciales simulando diferentes escenarios.
").

(** The whole script, top to bottom. *)
Definition main : M unit :=
  setup;;
  model ← load_model model_file;
  assign "model" model;;
  sidebar;;
  greeting;;
  prediction_logic;;
  render Divider;;
  about.

End Script.

(** One run of the script in a process: the namespace and the page start
    empty, the memo table and the call log are the process's. *)
Record process : Type := Process {
  proc_cache : gmap string (pyval * list placed);
  proc_log : list io_call
}.

Definition fresh_process : process := Process ∅ [].

Definition start (p : process) : state :=
  State ∅ [] Main (proc_cache p) (proc_log p).

Definition run (w : world) (p : process) : result unit * state :=
  main w (start p).

Definition after (s : state) : process :=
  Process (resource_cache s) (io_log s).


(* ===================================================================== *)
(** ** Observations on a run *)
(* ===================================================================== *)

(** What a computation adds to the page and to the call log. *)
Definition rendered_by {A : Type} (c : M A) (s : state) : list placed :=
  drop (length (page s)) (page (snd (c s))).


Definition sliders_of (p : list placed) : list slider_config :=
  omap (fun pe => match snd pe with SliderWidget c => Some c | _ => None end) p.

Definition is_Predict (c : io_call) : bool :=
  match c with Predict _ _ => true | _ => false end.

Definition is_load_of (path : string) (c : io_call) : bool :=
  match c with
  | JoblibLoad p => String.eqb p path
  | Predict _ _ => false
  end.

(** How many times [joblib.load(path)] ran. *)
Definition loads_of (path : string) (l : list io_call) : nat :=
  length (List.filter (is_load_of path) l).

(** The elements only the prediction block renders. *)
Definition is_prediction_output (e : element) : bool :=
  match e with
  | Subheader _ | Success _ | Info _ => true
  | _ => false
  end.

Definition not_found_message (path : string) : string :=
  "Error: No se encontró el archivo del modelo en " +:+ path +:+
  ". Asegúrate de que el archivo del modelo esté en el directorio correcto.".

(** What a first [load_model path] at the top level of the page does, by
    the file at [path]: the exception it lets through, or the value it
    returns with the elements it renders (the entry stored in the memo
    table). *)
Definition loads_as (w : world) (path : string) : exn + (pyval * list placed) :=
  match fs w path with
  | Artifact m => inr (VModel m, [])
  | Missing => inr (VNone, [(Main, Error (not_found_message path))])
  | Corrupt e =>
      if is_FileNotFoundError e
      then inr (VNone, [(Main, Error (not_found_message path))])
      else inl e
  | Unreadable => inl (permission_denied path)
  end.

(** A memo table that holds only what loading the present files gives. *)
Definition cache_agrees (w : world) (c : gmap string (pyval * list placed)) : Prop :=
  forall path entry, c !! path = Some entry -> loads_as w path = inr entry.

(** The file at a path can be opened and read. *)
Definition readable (f : file) : bool :=
  match f with
  | Missing | Unreadable => false
  | Corrupt _ | Artifact _ => true
  end.

(** The label of the button of line 82. *)
Definition predict_button : string := "🚀 Predecir % concentracion de Silice ".

(** The namespace and the page once [setup] has run. *)
Definition setup_globals : gmap string pyval :=
  <["load_model" := VFunction "load_model"]>
    (<["pd" := VModule "pandas"]>
       (<["st" := VModule "streamlit"]>
          (<["joblib" := VModule "joblib"]> ∅))).

Definition setup_page : list placed :=
  [(Main, PageConfig "Predictor del porcentaje de la concentración de sílice"
            "🧪" "wide")].

(** What the sidebar gets on the page before its first slider is rejected:
    the header and the instruction text. *)
Definition sidebar_page : list placed :=
  [(Sidebar, Header "⚙️ Parámetros de Entrada");
   (Sidebar, Markdown "
    Ajusta los deslizadores para que coincidan con los parametros del proceso de flotación.
    ")].

Definition undefined_name (x : string) : exn :=
  Exn NameError ("name '" +:+ x +:+ "' is not defined").

(** The namespace once line 28 has bound [model] to [v]. *)
Definition loaded_globals (v : pyval) : gmap string pyval :=
  <["model" := v]> setup_globals.

(** The state in which line 28 calls [load_model]. *)
Definition before_load (p : process) : state :=
  State setup_globals setup_page Main (proc_cache p) (proc_log p).

(** The same world with the sliders moved. *)
Definition with_sliders (sl : string -> pyval) (w : world) : world :=
  World (fs w) (predict w) sl (button_now w).

(** Line 28: the call of [load_model] in a run started in process [p]. *)
Definition loader_call (w : world) (p : process) : result pyval * state :=
  load_model w model_file (before_load p).

(** [n] further calls of [load_model path], one after the other. *)
Fixpoint load_again (w : world) (path : string) (n : nat) (s : state)
    : list (result pyval) * state :=
  match n with
  | O => ([], s)
  | S n' =>
      let '(r, s1) := load_model w path s in
      let '(rs, s2) := load_again w path n' s1 in
      (r :: rs, s2)
  end.


(* ===================================================================== *)
(** ** Example worlds *)
(* ===================================================================== *)

(** Slider positions given for the three sliders by label. *)
Definition sliders_at (amine air iron : float) (label : string) : pyval :=
  if String.eqb label (sl_label amine_slider) then VFloat amine
  else if String.eqb label (sl_label air_slider) then VFloat air
  else if String.eqb label (sl_label iron_slider) then VFloat iron
  else VNone.

(** A predictor that answers [65.4321] to everything. *)
Definition stub_predict (m : model_id) (arg : pyval) : exn + list float :=
  inr [65.4321%float].

(** A predictor that fails on everything. *)
Definition failing_predict (m : model_id) (arg : pyval) : exn + list float :=
  inl (Exn (OtherException "ValueError") "feature_names mismatch").

(** The model file is present, the button is pressed, the sliders are at
    their minimums (resp. maximums). *)
Definition w_minimums : world :=
  World (fun _ => Artifact 0%nat) stub_predict
        (sliders_at 241.70 175.85 62.51) (fun _ => true).

Definition w_maximums : world :=
  World (fun _ => Artifact 0%nat) stub_predict
        (sliders_at 739.30 372.44 68.01) (fun _ => true).

(** No model file; a model file that cannot be read. *)
Definition w_absent : world :=
  World (fun _ => Missing) stub_predict
        (sliders_at 488.43 280.13 62.51) (fun _ => true).

Definition w_unreadable : world :=
  World (fun _ => Unreadable) stub_predict
        (sliders_at 488.43 280.13 62.51) (fun _ => true).

Definition w_failing : world :=
  World (fun _ => Artifact 0%nat) failing_predict
        (sliders_at 488.43 280.13 62.51) (fun _ => true).

(** A state in which [model] and [df_input] are bound, as the [try] of line
    92 expects them. *)
Definition s_ready : state :=
  State (<["df_input" := VFrame [("Amina Flow", [VFloat 488.43]);
                                 ("Flotation Column 01 Air Flow", [VFloat 280.13]);
                                 ("% Iron Concentrate", [VFloat 65.0])]]>
           (<["model" := VModel 0%nat]> setup_globals))
        [] Main ∅ [].

(* ===================================================================== *)
(** ** Reruns *)
(* ===================================================================== *)

(** Streamlit runs the script again on every interaction.  [reruns ws p] is
    the process after one run per world of [ws], in order: each run starts
    from the memo table and the call log the previous one left. *)
Fixpoint reruns (ws : list world) (p : process) : process :=
  match ws with
  | [] => p
  | w :: ws' => reruns ws' (after (snd (run w p)))
  end.

(** The model file is present, with a predictor that returns an empty
    sequence. *)
Definition empty_predict (m : model_id) (arg : pyval) : exn + list float :=
  inr [].

Definition w_empty : world :=
  World (fun _ => Artifact 0%nat) empty_predict
        (sliders_at 488.43 280.13 62.51) (fun _ => true).

(** The prefix of the message of line 99. *)
Definition prediction_error_prefix : string :=
  "Ocurrió un error durante la predicción: ".




(* ===================================================================== *)
(** ** What two decimal places mean *)
(* ===================================================================== *)




(** The exception the first slider of the sidebar is rejected with: float
    bounds with an int step. *)
Definition slider_rejection : exn :=
  Exn StreamlitAPIException
    "Slider value arguments must be of matching types.
`min_value` has float type.
`max_value` has float type.
`step` has int type.".

(* ===================================================================== *)
(** ** Basic facts about the monad and the state *)
(* ===================================================================== *)

(** Unfold the primitives of the monad and evaluate, then bring the page
    to the form [old ++ new]. *)
Ltac run_script :=
  cbv beta iota zeta delta
    [sidebar greeting setup about within slider st_slider st_button
     slider_argument_error getattr_predict call_predict
     subscript0 render assign del log_call raise mbind M_bind mret M_ret
     set_page set_globals set_cursor set_resource_cache set_io_log
     page globals cursor resource_cache io_log
     sl_label sl_min_value sl_max_value sl_value sl_step
     amine_slider air_slider iron_slider predict_button];
  rewrite <- ?app_assoc.

Lemma bind_Ok {A B : Type} (c : M A) (f : A -> M B) (s s' : state) (a : A) :
  c s = (Ok a, s') -> (c ≫= f) s = f a s'.
Proof. intros H. unfold mbind, M_bind. rewrite H. reflexivity. Qed.

Lemma bind_Raise {A B : Type} (c : M A) (f : A -> M B) (s s' : state) (e : exn) :
  c s = (Raise e, s') -> (c ≫= f) s = (Raise e, s').
Proof. intros H. unfold mbind, M_bind. rewrite H. reflexivity. Qed.

Lemma drop_length_app {A : Type} (l k : list A) : drop (length l) (l ++ k) = k.
Proof. induction l as [|x l IH]; [reflexivity | exact IH]. Qed.

Lemma load_model_body_eq (w : world) (path : string) (s : state) :
  load_model_body w path s =
  let s1 := set_io_log (io_log s ++ [JoblibLoad path]) s in
  match fs w path with
  | Artifact m => (Ok (VModel m), s1)
  | Missing =>
      (Ok VNone, set_page (page s ++ [(cursor s, Error (not_found_message path))]) s1)
  | Unreadable => (Raise (permission_denied path), s1)
  | Corrupt e =>
      if is_FileNotFoundError e
      then (Ok VNone, set_page (page s ++ [(cursor s, Error (not_found_message path))]) s1)
      else (Raise e, s1)
  end.
Proof.
  unfold load_model_body, try_except, joblib_load, mbind, M_bind, log_call.
  destruct (fs w path) as [| |e|m]; cbn; try reflexivity;
    destruct (is_FileNotFoundError e); reflexivity.
Qed.

Lemma load_model_hit (w : world) (path : string) (s : state) (v : pyval)
    (shown : list placed) :
  resource_cache s !! path = Some (v, shown) ->
  load_model w path s = (Ok v, set_page (page s ++ shown) s).
Proof. intros H. unfold load_model, st_cache_resource. rewrite H. reflexivity. Qed.

Lemma load_model_miss (w : world) (path : string) (s : state) :
  resource_cache s !! path = None ->
  load_model w path s =
  match load_model_body w path s with
  | (Ok v, s') =>
      (Ok v, set_resource_cache
               (<[path := (v, drop (length (page s)) (page s'))]> (resource_cache s')) s')
  | (Raise e, s') => (Raise e, s')
  end.
Proof. intros H. unfold load_model, st_cache_resource. rewrite H. reflexivity. Qed.

(** A first load at the top level of the page, by what [loads_as] says. *)
Lemma load_model_first (w : world) (path : string) (s : state) :
  resource_cache s !! path = None ->
  cursor s = Main ->
  load_model w path s =
  match loads_as w path with
  | inr (v, shown) =>
      (Ok v, State (globals s) (page s ++ shown) Main
               (<[path := (v, shown)]> (resource_cache s))
               (io_log s ++ [JoblibLoad path]))
  | inl e =>
      (Raise e, State (globals s) (page s) Main (resource_cache s)
                  (io_log s ++ [JoblibLoad path]))
  end.
Proof.
  intros Hmiss Hcur. rewrite (load_model_miss _ _ _ Hmiss), load_model_body_eq.
  unfold loads_as. destruct s as [g pg cur rc lg]; cbn in *; subst cur.
  destruct (fs w path) as [| |e|m]; cbn.
  - rewrite drop_length_app. reflexivity.
  - reflexivity.
  - destruct (is_FileNotFoundError e); cbn.
    + rewrite drop_length_app. reflexivity.
    + reflexivity.
  - rewrite drop_all, app_nil_r. reflexivity.
Qed.

(** [load_model] touches neither the namespace nor the cursor, and the only
    call it can make is one [joblib.load]. *)
Lemma load_model_frame (w : world) (path : string) (s : state) :
  globals (snd (load_model w path s)) = globals s /\
  cursor (snd (load_model w path s)) = cursor s /\
  (io_log (snd (load_model w path s)) = io_log s \/
   io_log (snd (load_model w path s)) = io_log s ++ [JoblibLoad path]).
Proof.
  destruct (resource_cache s !! path) as [[v shown]|] eqn:Hc.
  - rewrite (load_model_hit _ _ _ _ _ Hc). cbn. auto.
  - rewrite (load_model_miss _ _ _ Hc), load_model_body_eq.
    destruct (fs w path) as [| |e|m]; cbn; auto.
    destruct (is_FileNotFoundError e); cbn; auto.
Qed.

(** With a memo table that agrees with the files, a load at the top level
    is decided by the file alone, hit or miss. *)
Lemma load_model_agrees (w : world) (path : string) (s : state) :
  cache_agrees w (resource_cache s) ->
  cursor s = Main ->
  exists c l,
    cache_agrees w c /\
    load_model w path s =
    match loads_as w path with
    | inr (v, shown) => (Ok v, State (globals s) (page s ++ shown) Main c l)
    | inl e => (Raise e, State (globals s) (page s) Main c l)
    end.
Proof.
  intros Hag Hcur.
  destruct (resource_cache s !! path) as [[v shown]|] eqn:Hc.
  - exists (resource_cache s), (io_log s). split; [exact Hag |].
    rewrite (Hag _ _ Hc), (load_model_hit _ _ _ _ _ Hc).
    destruct s; cbn in *; subst; reflexivity.
  - rewrite (load_model_first w path s Hc Hcur).
    destruct (loads_as w path) as [e|[v shown]] eqn:Hl.
    + exists (resource_cache s), (io_log s ++ [JoblibLoad path]).
      split; [exact Hag | reflexivity].
    + exists (<[path := (v, shown)]> (resource_cache s)),
             (io_log s ++ [JoblibLoad path]).
      split; [| reflexivity].
      intros q entry. rewrite lookup_insert. case_decide as Hq.
      * intros [= <-]. subst q. exact Hl.
      * apply Hag.
Qed.

(** Each slider call of the sidebar is rejected: it raises before anything
    is rendered or returned. *)
Lemma slider_rejected (w : world) (c : slider_config) (s : state) :
  In c [amine_slider; air_slider; iron_slider] ->
  slider w c s = (Raise slider_rejection, s).
Proof. intros [<-|[<-|[<-|[]]]]; reflexivity. Qed.

(** Lines 31-65: the sidebar renders its header and its instruction text,
    then stops at the slider of line 38. *)
Lemma sidebar_eq (w : world) (s : state) :
  sidebar w s =
  (Raise slider_rejection,
   State (globals s) (page s ++ sidebar_page) (cursor s) (resource_cache s)
         (io_log s)).
Proof.
  destruct s as [g pg cur rc lg]. unfold sidebar, within.
  cbv beta iota zeta delta
    [render mbind M_bind set_page set_cursor page globals cursor
     resource_cache io_log].
  rewrite (slider_rejected w amine_slider) by (left; reflexivity).
  cbv beta iota zeta delta
    [set_page set_cursor page globals cursor resource_cache io_log].
  rewrite <- app_assoc. reflexivity.
Qed.

Lemma name_bound (x : string) (v : pyval) (s : state) :
  globals s !! x = Some v -> name x s = (Ok v, s).
Proof. intros H. unfold name. rewrite H. reflexivity. Qed.

Lemma name_unbound (x : string) (s : state) :
  globals s !! x = None -> name x s = (Raise (undefined_name x), s).
Proof. intros H. unfold name. rewrite H. reflexivity. Qed.



(** The script from line 28 on, once [load_model] has returned [v]: [model]
    is bound, the sidebar stops at its first slider, and nothing of lines
    66-123 runs. *)
Lemma script_after_load (w : world) (v : pyval) (s1 : state) :
  globals s1 = setup_globals ->
  cursor s1 = Main ->
  (assign "model" v;; sidebar w;; greeting;; prediction_logic w;;
   render Divider;; about) s1 =
  (Raise slider_rejection,
   State (loaded_globals v) (page s1 ++ sidebar_page) Main
         (resource_cache s1) (io_log s1)).
Proof.
  intros Hg Hcur. destruct s1 as [g pg cur rc lg]. cbn in Hg, Hcur. subst g cur.
  erewrite bind_Ok by reflexivity.
  erewrite bind_Raise by apply sidebar_eq.
  reflexivity.
Qed.

Lemma run_eq (w : world) (p : process) :
  run w p =
  match load_model w model_file (before_load p) with
  | (Ok v, s1) =>
      (assign "model" v;; sidebar w;; greeting;; prediction_logic w;;
       render Divider;; about) s1
  | (Raise e, s1) => (Raise e, s1)
  end.
Proof. reflexivity. Qed.

(* ===================================================================== *)

(** ** The model loader *)
(* ===================================================================== *)

Lemma loads_of_snoc (path : string) (l : list io_call) :
  loads_of path (l ++ [JoblibLoad path]) = S (loads_of path l).
Proof.
  unfold loads_of. rewrite List.filter_app, List.length_app. cbn.
  rewrite String.eqb_refl. cbn. lia.
Qed.

(** A hit on an entry that recorded no element leaves the state as it is. *)
Lemma load_model_pure_hit (w : world) (path : string) (s : state) (v : pyval) :
  resource_cache s !! path = Some (v, []) ->
  load_model w path s = (Ok v, s).
Proof.
  intros H. rewrite (load_model_hit _ _ _ _ _ H), app_nil_r.
  destruct s; reflexivity.
Qed.

Lemma load_again_pure_hit (w : world) (path : string) (s : state) (v : pyval)
    (n : nat) :
  resource_cache s !! path = Some (v, []) ->
  load_again w path n s = (repeat (Ok v) n, s).
Proof.
  intros H. induction n as [|n IH]; [reflexivity |].
  cbn [load_again repeat]. rewrite (load_model_pure_hit _ _ _ _ H), IH.
  reflexivity.
Qed.

(** C9. Loading a valid model path for the first time runs [joblib.load]
    exactly once and returns the predictor of the file; the result is stored
    under the path, and any number of later calls with that path, whatever
    the files have become, return the same predictor, leave the state
    untouched and so never deserialize again. *)
Theorem load_model_deserializes_once (w w' : world) (path : string)
    (m : model_id) (s : state) (n : nat) :
  resource_cache s !! path = None ->
  fs w path = Artifact m ->
  let s1 := snd (load_model w path s) in
  fst (load_model w path s) = Ok (VModel m) /\
  resource_cache s1 !! path = Some (VModel m, []) /\
  load_again w' path n s1 = (repeat (Ok (VModel m)) n, s1) /\
  loads_of path (io_log (snd (load_again w' path n s1))) =
    S (loads_of path (io_log s)).
Proof.
  intros Hmiss Hfs s1.
  assert (Hs1 : load_model w path s =
                (Ok (VModel m),
                 State (globals s) (page s) (cursor s)
                       (<[path := (VModel m, [])]> (resource_cache s))
                       (io_log s ++ [JoblibLoad path]))).
  { rewrite (load_model_miss _ _ _ Hmiss), load_model_body_eq, Hfs. cbn.
    rewrite drop_all. reflexivity. }
  subst s1. rewrite Hs1. cbn [fst snd].
  assert (Hhit : resource_cache
                   (State (globals s) (page s) (cursor s)
                      (<[path := (VModel m, [])]> (resource_cache s))
                      (io_log s ++ [JoblibLoad path])) !! path
                 = Some (VModel m, [])) by apply lookup_insert_eq.
  repeat split.
  - exact Hhit.
  - apply load_again_pure_hit, Hhit.
  - rewrite (load_again_pure_hit _ _ _ _ _ Hhit). cbn. apply loads_of_snoc.
Qed.

(** An instance: a fresh process, the model file present, then three more
    calls after the file has gone. *)
Lemma load_model_deserializes_once_witness :
  resource_cache (before_load fresh_process) !! model_file = None /\
  fs w_minimums model_file = Artifact 0%nat /\
  fst (load_model w_minimums model_file (before_load fresh_process)) = Ok (VModel 0%nat) /\
  loads_of model_file
    (io_log (snd (load_again w_absent model_file 3
                    (snd (load_model w_minimums model_file (before_load fresh_process))))))
  = 1%nat.
Proof.
  split; [reflexivity |]. split; [reflexivity |].
  pose proof (load_model_deserializes_once w_minimums w_absent model_file 0%nat
                (before_load fresh_process) 3 eq_refl eq_refl)
    as (H1 & _ & _ & H4).
  split; [exact H1 | exact H4].
Defined.

(** C5, the claim as stated fails: a model file that exists but cannot be
    read is not a readable file, and [load_model] lets the
    [PermissionError] of [joblib.load] through, since its handler names
    [FileNotFoundError] only. *)
Lemma load_model_unreadable_raises :
  readable (fs w_unreadable model_file) = false /\
  fst (load_model w_unreadable model_file (before_load fresh_process)) =
  Raise (Exn PermissionError "[Errno 13] Permission denied: 'model_flotacion.joblib'").
Proof. split; reflexivity. Qed.

(** C5, amended. For every path at which no file exists, when the memo
    table holds nothing stale for the path (on a first load in particular),
    [load_model] returns [None] without raising, and an error message that
    names the path is put on the page. *)
Theorem load_model_missing_file (w : world) (path : string) (s : state) :
  (forall entry, resource_cache s !! path = Some entry ->
                 loads_as w path = inr entry) ->
  fs w path = Missing ->
  fst (load_model w path s) = Ok VNone /\
  exists c,
    page (snd (load_model w path s)) =
    page s ++ [(c, Error ("Error: No se encontró el archivo del modelo en "
                          +:+ path +:+
                          ". Asegúrate de que el archivo del modelo esté en el directorio correcto."))].
Proof.
  intros Hag Hfs.
  destruct (resource_cache s !! path) as [[v shown]|] eqn:Hc.
  - pose proof (Hag _ eq_refl) as Hl. unfold loads_as in Hl. rewrite Hfs in Hl.
    injection Hl as <- <-.
    rewrite (load_model_hit _ _ _ _ _ Hc). split; [reflexivity |].
    exists Main. reflexivity.
  - rewrite (load_model_miss _ _ _ Hc), load_model_body_eq, Hfs. cbn.
    split; [reflexivity |]. exists (cursor s). reflexivity.
Qed.

Lemma cache_agrees_empty (w : world) : cache_agrees w ∅.
Proof. intros path entry H. rewrite lookup_empty in H. discriminate. Qed.

(** An instance: a fresh process and no model file. *)
Lemma load_model_missing_file_witness :
  fs w_absent model_file = Missing /\
  fst (load_model w_absent model_file (before_load fresh_process)) = Ok VNone /\
  page (snd (load_model w_absent model_file (before_load fresh_process))) =
    setup_page ++
    [(Main, Error "Error: No se encontró el archivo del modelo en model_flotacion.joblib. Asegúrate de que el archivo del modelo esté en el directorio correcto.")].
Proof.
  split; [reflexivity |].
  split; [| reflexivity].
  refine (proj1 (load_model_missing_file w_absent model_file
                   (before_load fresh_process) _ eq_refl)).
  intros entry H. discriminate H.
Defined.

(* ===================================================================== *)
(* ===================================================================== *)
(** ** Whole runs *)
(* ===================================================================== *)

(** A run in which line 28 returned [v] stops at line 38. *)
Lemma run_loaded (w : world) (p : process) (v : pyval) :
  fst (loader_call w p) = Ok v ->
  run w p =
  (Raise slider_rejection,
   State (loaded_globals v) (page (snd (loader_call w p)) ++ sidebar_page) Main
         (resource_cache (snd (loader_call w p)))
         (io_log (snd (loader_call w p)))).
Proof.
  intros H. rewrite run_eq. unfold loader_call in *.
  pose proof (load_model_frame w model_file (before_load p)) as (Hg & Hcur & _).
  destruct (load_model w model_file (before_load p)) as [[v'|e] s1];
    cbn in H, Hg, Hcur; [| discriminate].
  injection H as ->. cbn [snd]. apply script_after_load; assumption.
Qed.

(** A run in which line 28 raised: the script stops there. *)
Lemma run_not_loaded (w : world) (p : process) (e : exn) :
  fst (loader_call w p) = Raise e ->
  run w p = (Raise e, snd (loader_call w p)).
Proof.
  intros H. rewrite run_eq. unfold loader_call in *.
  destruct (load_model w model_file (before_load p)) as [[v|e'] s1];
    cbn in H; [discriminate |].
  injection H as ->. reflexivity.
Qed.

(** The loader makes no call to [predict]. *)
Lemma loader_call_no_predict (w : world) (p : process) :
  List.filter is_Predict (io_log (snd (loader_call w p))) =
  List.filter is_Predict (proc_log p).
Proof.
  unfold loader_call.
  destruct (load_model_frame w model_file (before_load p)) as (_ & _ & [H|H]);
    rewrite H; [reflexivity |].
  rewrite List.filter_app. cbn. apply app_nil_r.
Qed.

(** The namespace line 28 leaves is the one [setup] made. *)
Lemma loader_call_globals (w : world) (p : process) :
  globals (snd (loader_call w p)) = setup_globals.
Proof.
  unfold loader_call.
  destruct (load_model_frame w model_file (before_load p)) as (Hg & _).
  exact Hg.
Qed.

(** After line 28 a run touches neither the memo table nor the call log. *)
Lemma run_process (w : world) (p : process) :
  after (snd (run w p)) = after (snd (loader_call w p)).
Proof.
  destruct (fst (loader_call w p)) as [v|e] eqn:Hr.
  - rewrite (run_loaded _ _ _ Hr). reflexivity.
  - rewrite (run_not_loaded _ _ _ Hr). reflexivity.
Qed.

(** The namespace a run ends with: the one of [setup], with [model] added
    when line 28 returned. *)
Lemma run_globals (w : world) (p : process) :
  globals (snd (run w p)) =
  match fst (loader_call w p) with
  | Ok v => loaded_globals v
  | Raise _ => setup_globals
  end.
Proof.
  destruct (fst (loader_call w p)) as [v|e] eqn:Hr.
  - rewrite (run_loaded _ _ _ Hr). reflexivity.
  - rewrite (run_not_loaded _ _ _ Hr). apply loader_call_globals.
Qed.

(** The names of the script that setup and line 28 do not bind. *)
Lemma unbound_after_line_28 (b : result pyval) (x : string) :
  In x ["flowrate"; "temperature"; "pressure"; "flowrateAmina";
        "IronConcentrate"; "df_input"; "prediction_value"; "e"] ->
  match b with
  | Ok v => loaded_globals v
  | Raise _ => setup_globals
  end !! x = None.
Proof.
  intros Hx. destruct b as [v|e];
    repeat (destruct Hx as [<-|Hx]; [reflexivity |]); destruct Hx.
Qed.

(** The page a run ends with. *)
Lemma run_page (w : world) (p : process) :
  page (snd (run w p)) =
  page (snd (loader_call w p)) ++
  match fst (loader_call w p) with
  | Ok _ => sidebar_page
  | Raise _ => []
  end.
Proof.
  destruct (fst (loader_call w p)) as [v|e] eqn:Hr.
  - rewrite (run_loaded _ _ _ Hr). reflexivity.
  - rewrite (run_not_loaded _ _ _ Hr), app_nil_r. reflexivity.
Qed.

(** X1. In no run, whatever the files, the memo table, the sliders and the
    button, is [predict] called, and no run binds [df_input],
    [prediction_value], [flowrateAmina] or [IronConcentrate]. *)
Theorem run_never_predicts (w : world) (p : process) :
  List.filter is_Predict (io_log (snd (run w p))) =
    List.filter is_Predict (proc_log p) /\
  globals (snd (run w p)) !! "df_input" = None /\
  globals (snd (run w p)) !! "prediction_value" = None /\
  globals (snd (run w p)) !! "flowrateAmina" = None /\
  globals (snd (run w p)) !! "IronConcentrate" = None.
Proof.
  split.
  - change (io_log (snd (run w p))) with (proc_log (after (snd (run w p)))).
    rewrite run_process. apply loader_call_no_predict.
  - rewrite run_globals.
    repeat split; apply unbound_after_line_28; cbn; tauto.
Qed.

(** X2. No run ends normally.  A run raises what [load_model] let through,
    or else, with [model] bound to what it returned, the
    [StreamlitAPIException] of the slider of line 38: after line 28 the
    page only gains the header and the instruction text of the sidebar, no
    slider, caption, title, button, warning, divider or expander, and
    [flowrate], [temperature] and [pressure] are never bound. *)
Theorem every_run_raises (w : world) (p : process) :
  (exists e,
     fst (run w p) = Raise e /\
     (fst (loader_call w p) = Raise e \/
      exn_cls e = StreamlitAPIException /\
      exists v, fst (loader_call w p) = Ok v /\
                globals (snd (run w p)) !! "model" = Some v)) /\
  (exists rest,
     page (snd (run w p)) = page (snd (loader_call w p)) ++ rest /\
     forallb (fun pe => match snd pe with
                        | Header _ | Markdown _ => true
                        | _ => false
                        end) rest = true /\
     forallb (fun pe => match fst pe with Sidebar => true | _ => false end)
             rest = true) /\
  globals (snd (run w p)) !! "flowrate" = None /\
  globals (snd (run w p)) !! "temperature" = None /\
  globals (snd (run w p)) !! "pressure" = None.
Proof.
  split; [| split].
  - destruct (fst (loader_call w p)) as [v|e] eqn:Hr.
    + exists slider_rejection. rewrite (run_loaded _ _ _ Hr).
      split; [reflexivity |]. right. split; [reflexivity |].
      exists v. split; reflexivity.
    + exists e. rewrite (run_not_loaded _ _ _ Hr). auto.
  - rewrite run_page. eexists. split; [reflexivity |].
    destruct (fst (loader_call w p)); split; reflexivity.
  - rewrite run_globals.
    repeat split; apply unbound_after_line_28; cbn; tauto.
Qed.

(** C7. When [load_model] returned [None], [predict] is not called, but the
    run does not reach the warning of lines 100-101: it stops at the slider
    of line 38 with a [StreamlitAPIException], and after line 28 the page
    only gains the header and the instruction text of the sidebar. *)
Theorem no_model_run_stops_before_the_warning (w : world) (p : process) :
  fst (loader_call w p) = Ok VNone ->
  (exists e, fst (run w p) = Raise e /\ exn_cls e = StreamlitAPIException) /\
  page (snd (run w p)) = page (snd (loader_call w p)) ++ sidebar_page /\
  forallb (fun pe => match snd pe with Warning _ => false | _ => true end)
          sidebar_page = true /\
  List.filter is_Predict (io_log (snd (run w p))) =
    List.filter is_Predict (proc_log p).
Proof.
  intros H. rewrite (run_loaded _ _ _ H). cbn [fst snd page io_log].
  split; [exists slider_rejection; split; reflexivity |].
  split; [reflexivity |]. split; [reflexivity |].
  apply loader_call_no_predict.
Qed.

(** An instance: no model file, a fresh process.  The page holds the page
    configuration, the error of the loader and the two elements of the
    sidebar, and no warning. *)
Lemma no_model_run_stops_before_the_warning_witness :
  fst (loader_call w_absent fresh_process) = Ok VNone /\
  (exists e, fst (run w_absent fresh_process) = Raise e /\
             exn_cls e = StreamlitAPIException) /\
  page (snd (run w_absent fresh_process)) =
    setup_page ++ [(Main, Error (not_found_message model_file))] ++ sidebar_page /\
  forallb (fun pe => match snd pe with Warning _ => false | _ => true end)
          (page (snd (run w_absent fresh_process))) = true.
Proof.
  pose proof (no_model_run_stops_before_the_warning w_absent fresh_process eq_refl)
    as (H1 & _).
  split; [reflexivity |]. split; [exact H1 |]. split; reflexivity.
Defined.




(** C1. With the model file present and the sliders set at their minimums,
    or at their maximums, no record is built.  The run stops at the slider
    of line 38 with a [StreamlitAPIException] (float bounds, int step):
    [flowrate], [temperature], [pressure] and [df_input] stay unbound and
    the button is not rendered.  And were the three sliders bound to any
    values in the namespace the run leaves, lines 85-89 would still raise
    the [NameError] of [flowrateAmina] and bind no frame. *)
Theorem trigger_at_bounds_builds_no_record :
  (forall w, In w [w_minimums; w_maximums] ->
     (exists e, fst (run w fresh_process) = Raise e /\
                exn_cls e = StreamlitAPIException) /\
     page (snd (run w fresh_process)) = setup_page ++ sidebar_page /\
     globals (snd (run w fresh_process)) !! "flowrate" = None /\
     globals (snd (run w fresh_process)) !! "temperature" = None /\
     globals (snd (run w fresh_process)) !! "pressure" = None /\
     globals (snd (run w fresh_process)) !! "df_input" = None) /\
  (forall a b c : pyval,
     let s := State (<["pressure" := c]>
                       (<["temperature" := b]>
                          (<["flowrate" := a]>
                             (globals (snd (run w_minimums fresh_process))))))
                    [] Main ∅ [] in
     build_df_input s =
     (Raise (Exn NameError "name 'flowrateAmina' is not defined"), s)).
Proof.
  split.
  - intros w [<-|[<-|[]]];
      (split; [exists slider_rejection; split; reflexivity |]);
      repeat split; reflexivity.
  - intros a b c s. unfold build_df_input.
    erewrite bind_Raise; [reflexivity |].
    apply name_unbound. reflexivity.
Qed.

(** An instance: the sliders at their minimums. *)
Lemma trigger_at_bounds_builds_no_record_witness :
  slider_now w_minimums (sl_label amine_slider) = VFloat 241.70 /\
  button_now w_minimums predict_button = true /\
  globals (snd (run w_minimums fresh_process)) !! "df_input" = None.
Proof.
  split; [reflexivity |]. split; [reflexivity |].
  destruct (proj1 trigger_at_bounds_builds_no_record w_minimums
              (or_introl eq_refl)) as (_ & _ & _ & _ & _ & H).
  exact H.
Defined.

(** C3. Wherever the sliders stand, no record reaches the predictor: a run
    never ends normally, makes no call to [predict] and binds no frame to
    [df_input]. *)
Theorem no_record_reaches_predict (w : world) (sl : string -> pyval)
    (p : process) :
  fst (run (with_sliders sl w) p) <> Ok tt /\
  List.filter is_Predict (io_log (snd (run (with_sliders sl w) p))) =
    List.filter is_Predict (proc_log p) /\
  globals (snd (run (with_sliders sl w) p)) !! "df_input" = None.
Proof.
  split; [| split].
  - destruct (fst (loader_call (with_sliders sl w) p)) as [v|e] eqn:Hr.
    + rewrite (run_loaded _ _ _ Hr). discriminate.
    + rewrite (run_not_loaded _ _ _ Hr). discriminate.
  - change (io_log (snd (run (with_sliders sl w) p)))
      with (proc_log (after (snd (run (with_sliders sl w) p)))).
    rewrite run_process. apply loader_call_no_predict.
  - rewrite run_globals. apply unbound_after_line_28. cbn. tauto.
Qed.

(** With a memo table that agrees with the files, what line 28 returns and
    renders is decided by the model file alone, on a hit as on a miss. *)
Lemma loader_call_agrees (w : world) (p : process) :
  cache_agrees w (proc_cache p) ->
  match loads_as w model_file with
  | inr (v, shown) =>
      fst (loader_call w p) = Ok v /\
      page (snd (loader_call w p)) = setup_page ++ shown
  | inl e =>
      fst (loader_call w p) = Raise e /\
      page (snd (loader_call w p)) = setup_page /\
      globals (snd (loader_call w p)) = setup_globals
  end /\
  cache_agrees w (resource_cache (snd (loader_call w p))).
Proof.
  intros Hag. unfold loader_call.
  destruct (load_model_agrees w model_file (before_load p) Hag eq_refl)
    as (c & l & Hc & H).
  rewrite H. destruct (loads_as w model_file) as [e|[v shown]]; cbn; auto.
Qed.

(** A run keeps the memo table in agreement with the files. *)

(** A run keeps the memo table in agreement with the files. *)
Lemma run_keeps_agreement (w : world) (p : process) :
  cache_agrees w (proc_cache p) ->
  cache_agrees w (proc_cache (after (snd (run w p)))).
Proof.
  intros Hag. destruct (loader_call_agrees w p Hag) as [_ Hc].
  rewrite run_process. exact Hc.
Qed.

(** X12. With a memo table that holds only what loading the present files
    gives, no run puts an element of the success branch (the result
    heading, the success message, the explanatory sentence) on the page. *)
Lemma no_run_renders_a_prediction (w : world) (p : process) :
  cache_agrees w (proc_cache p) ->
  forallb (fun pe => negb (is_prediction_output (snd pe)))
          (page (snd (run w p))) = true.
Proof.
  intros Hag. destruct (loader_call_agrees w p Hag) as [H _].
  rewrite run_page. unfold loads_as in H.
  destruct (fs w model_file) as [| |e|m].
  - destruct H as [-> ->]. reflexivity.
  - destruct H as (-> & -> & _). reflexivity.
  - destruct (is_FileNotFoundError e).
    + destruct H as [-> ->]. reflexivity.
    + destruct H as (-> & -> & _). reflexivity.
  - destruct H as [-> ->]. reflexivity.
Qed.


(** An instance: the model file present and the button pressed, in a fresh
    process. *)
Lemma no_run_renders_a_prediction_witness :
  button_now w_minimums predict_button = true /\
  forallb (fun pe => negb (is_prediction_output (snd pe)))
          (page (snd (run w_minimums fresh_process))) = true.
Proof.
  split; [reflexivity |].
  exact (no_run_renders_a_prediction w_minimums fresh_process
           (cache_agrees_empty w_minimums)).
Defined.


(* ===================================================================== *)
(** ** The sliders *)
(* ===================================================================== *)

(** C8. The sidebar calls [st.slider] with the arguments of the table:
    amine flow (241.70, 739.30, 488.43, 1), column-1 air flow (175.85,
    372.44, 280.13, 1), iron concentrate (62.51, 68.01, 0, 1), the last
    initial value lying below its minimum.  But each of these calls mixes
    float bounds with an int step and is rejected with a
    [StreamlitAPIException] before anything is rendered, returned or bound:
    the sidebar stops at the first of them, after its header and its
    instruction text, and no slider is exposed. *)
Theorem slider_configuration (w : world) (s : state) :
  let table :=
    [SliderConfig "Caudal de amina (m³/s)"
       (VFloat 241.70) (VFloat 739.30) (VFloat 488.43) (VInt 1);
     SliderConfig "Flujo de aire que ingresa a la columna 1 (m³/s)"
       (VFloat 175.85) (VFloat 372.44) (VFloat 280.13) (VInt 1);
     SliderConfig "Concentración de Hierro (%)"
       (VFloat 62.51) (VFloat 68.01) (VInt 0) (VInt 1)] in
  [amine_slider; air_slider; iron_slider] = table /\
  Forall (fun c => exists e, slider w c s = (Raise e, s) /\
                             exn_cls e = StreamlitAPIException) table /\
  (exists e, fst (sidebar w s) = Raise e /\ exn_cls e = StreamlitAPIException) /\
  sliders_of (rendered_by (sidebar w) s) = [] /\
  globals (snd (sidebar w s)) = globals s /\
  map (fun c => in_range c (sl_value c)) table =
    [Some true; Some true; Some false] /\
  py_le (VFloat 62.51) (VInt 0) = Some false.
Proof.
  intros table. split; [reflexivity |]. split.
  - repeat constructor; exists slider_rejection; split; reflexivity.
  - rewrite sidebar_eq. unfold rendered_by. rewrite sidebar_eq.
    cbn [fst snd page globals]. rewrite drop_length_app.
    split; [exists slider_rejection; split; reflexivity |].
    repeat split; vm_compute; reflexivity.
Qed.

(* ===================================================================== *)
(** ** The prediction block *)
(* ===================================================================== *)

Lemma is_Exception_true (e : exn) : is_Exception e = true.
Proof. destruct e as [[] text]; reflexivity. Qed.

(** Lines 92-99 when [model] is a predictor and [df_input] is bound, by
    what the predictor answers. *)
Lemma try_predict_ready (w : world) (s : state) (m : model_id) (df : pyval) :
  globals s !! "model" = Some (VModel m) ->
  globals s !! "df_input" = Some df ->
  try_predict w s =
  match predict w m df with
  | inl e =>
      (Ok tt,
       State (delete "e" (<["e" := VExc e]> (globals s)))
             (page s ++ [(cursor s, Error (prediction_error_prefix +:+ exn_text e))])
             (cursor s) (resource_cache s) (io_log s ++ [Predict m df]))
  | inr [] =>
      (Ok tt,
       State (delete "e" (<["e" := VExc (Exn IndexError "list index out of range")]>
                            (<["prediction_value" := VSeq []]> (globals s))))
             (page s ++
              [(cursor s, Subheader "📈 Resultado de la Predicción");
               (cursor s, Error (prediction_error_prefix +:+ "list index out of range"))])
             (cursor s) (resource_cache s) (io_log s ++ [Predict m df]))
  | inr (x :: xs) =>
      (Ok tt,
       State (<["prediction_value" := VSeq (x :: xs)]> (globals s))
             (page s ++
              [(cursor s, Subheader "📈 Resultado de la Predicción");
               (cursor s, Success ("**% Concentracion de Sílice Predicho:** `"
                                   +:+ Fmt.format_2f x +:+ "%`"));
               (cursor s, Info "Este valor representa el porcentaje estimado del % de la concentración de sílice despues del proceso de flotación.")])
             (cursor s) (resource_cache s) (io_log s ++ [Predict m df]))
  end.
Proof.
  intros Hm Hdf. unfold try_predict, try_except, prediction_error_prefix.
  erewrite bind_Ok by (apply name_bound; exact Hm).
  erewrite bind_Ok by reflexivity.
  erewrite bind_Ok by (apply name_bound; exact Hdf).
  destruct s as [g pg cur rc lg]. run_script.
  destruct (predict w m df) as [e|[|x xs]];
    rewrite ?is_Exception_true; rewrite <- ?app_assoc; reflexivity.
Qed.

(** C4. Whatever exception [model.predict] raises, the [try] of lines 92-99
    ends normally: the handler renders one error message, made of the fixed
    prefix and the text of the exception, and nothing else; none of the
    elements of the success branch is on the page, and neither [e] nor
    [prediction_value] is bound by the block. *)
Theorem prediction_failure_is_caught (w : world) (s : state) (m : model_id)
    (df : pyval) (e : exn) :
  globals s !! "model" = Some (VModel m) ->
  globals s !! "df_input" = Some df ->
  predict w m df = inl e ->
  try_predict w s =
    (Ok tt,
     State (delete "e" (<["e" := VExc e]> (globals s)))
           (page s ++ [(cursor s, Error ("Ocurrió un error durante la predicción: "
                                         +:+ exn_text e))])
           (cursor s) (resource_cache s) (io_log s ++ [Predict m df])) /\
  rendered_by (try_predict w) s =
    [(cursor s, Error ("Ocurrió un error durante la predicción: " +:+ exn_text e))] /\
  globals (snd (try_predict w s)) !! "e" = None /\
  globals (snd (try_predict w s)) !! "prediction_value" =
    globals s !! "prediction_value".
Proof.
  intros Hm Hdf Hp.
  assert (Heq : try_predict w s =
    (Ok tt,
     State (delete "e" (<["e" := VExc e]> (globals s)))
           (page s ++ [(cursor s, Error ("Ocurrió un error durante la predicción: "
                                         +:+ exn_text e))])
           (cursor s) (resource_cache s) (io_log s ++ [Predict m df]))).
  { rewrite (try_predict_ready w s m df Hm Hdf), Hp. reflexivity. }
  split; [exact Heq |]. unfold rendered_by. rewrite Heq. cbn [snd page globals].
  split; [apply drop_length_app |].
  split; [apply lookup_delete_eq |].
  rewrite lookup_delete_ne, lookup_insert_ne by discriminate. reflexivity.
Qed.

(** An instance: a predictor that raises [ValueError]. *)
Lemma prediction_failure_is_caught_witness :
  globals s_ready !! "model" = Some (VModel 0%nat) /\
  predict w_failing 0%nat
    (VFrame [("Amina Flow", [VFloat 488.43]);
             ("Flotation Column 01 Air Flow", [VFloat 280.13]);
             ("% Iron Concentrate", [VFloat 65.0])]) =
    inl (Exn (OtherException "ValueError") "feature_names mismatch") /\
  fst (try_predict w_failing s_ready) = Ok tt /\
  rendered_by (try_predict w_failing) s_ready =
    [(Main, Error "Ocurrió un error durante la predicción: feature_names mismatch")].
Proof.
  split; [reflexivity |]. split; [reflexivity |].
  pose proof (prediction_failure_is_caught w_failing s_ready 0%nat _ _
                eq_refl eq_refl eq_refl) as (H1 & H2 & _).
  split; [rewrite H1; reflexivity | exact H2].
Defined.

(** X8. The [try] of lines 92-99 never lets an exception through, whatever
    the namespace and the predictor: an unbound [model] or [df_input], a
    [model] without [predict], a failing predictor or an empty answer all
    end in the handler.  The block renders either the three elements of the
    success branch, or a list that ends with one error message, and then
    [e] is unbound. *)
Theorem try_predict_never_raises (w : world) (s : state) :
  fst (try_predict w s) = Ok tt /\
  cursor (snd (try_predict w s)) = cursor s /\
  resource_cache (snd (try_predict w s)) = resource_cache s /\
  ((exists x,
      rendered_by (try_predict w) s =
      [(cursor s, Subheader "📈 Resultado de la Predicción");
       (cursor s, Success ("**% Concentracion de Sílice Predicho:** `"
                           +:+ Fmt.format_2f x +:+ "%`"));
       (cursor s, Info "Este valor representa el porcentaje estimado del % de la concentración de sílice despues del proceso de flotación.")]) \/
   (exists before msg,
      rendered_by (try_predict w) s =
        before ++ [(cursor s, Error (prediction_error_prefix +:+ msg))] /\
      Forall (fun pe => is_prediction_output (snd pe) = true) before /\
      globals (snd (try_predict w s)) !! "e" = None)).
Proof.
  destruct s as [g pg cur rc lg].
  unfold rendered_by, try_predict, try_except, name, prediction_error_prefix.
  run_script.
  assert (Hfail : forall (text : string) (v : pyval) (g' : gmap string pyval)
                         (before : list placed),
            Forall (fun pe => is_prediction_output (snd pe) = true) before ->
            exists before0 msg,
              drop (length pg)
                (pg ++ before ++
                 [(cur, Error ("Ocurrió un error durante la predicción: "
                               +:+ text))]) =
              before0 ++ [(cur, Error ("Ocurrió un error durante la predicción: "
                                       +:+ msg))] /\
              Forall (fun pe => is_prediction_output (snd pe) = true) before0 /\
              delete "e" (<["e" := v]> g') !! "e" = None).
  { intros text v g' before Hb. exists before, text.
    rewrite drop_length_app. split; [reflexivity |].
    split; [exact Hb | apply lookup_delete_eq]. }
  destruct (g !! "model") as [v|].
  2: { cbn. repeat split. right. apply (Hfail _ _ g []). constructor. }
  destruct v;
    try (cbn; repeat split; right; apply (Hfail _ _ g []); constructor).
  destruct (g !! "df_input") as [df|].
  2: { cbn. repeat split. right. apply (Hfail _ _ g []). constructor. }
  destruct (predict w m df) as [e|[|x xs]]; rewrite ?is_Exception_true; cbn.
  - repeat split. right. apply (Hfail _ _ g []). constructor.
  - repeat split. right. rewrite <- app_assoc.
    apply (Hfail _ _ _ [(cur, Subheader "📈 Resultado de la Predicción")]).
    repeat constructor.
  - repeat split. left. exists x. rewrite <- !app_assoc. apply drop_length_app.
Qed.

(** X9. When [model.predict] returns an empty sequence, the heading of the
    result is already on the page when [prediction_value[0]] raises: the
    block ends normally with the heading followed by the error message, and
    [prediction_value] stays bound to the empty sequence. *)
Theorem empty_prediction_leaves_the_heading (w : world) (s : state)
    (m : model_id) (df : pyval) :
  globals s !! "model" = Some (VModel m) ->
  globals s !! "df_input" = Some df ->
  predict w m df = inr [] ->
  fst (try_predict w s) = Ok tt /\
  (exists msg,
     rendered_by (try_predict w) s =
     [(cursor s, Subheader "📈 Resultado de la Predicción");
      (cursor s, Error (prediction_error_prefix +:+ msg))]) /\
  globals (snd (try_predict w s)) !! "prediction_value" = Some (VSeq []).
Proof.
  intros Hm Hdf Hp.
  unfold rendered_by. rewrite (try_predict_ready w s m df Hm Hdf), Hp.
  cbn [fst snd page globals].
  split; [reflexivity |].
  split; [eexists; apply drop_length_app |].
  rewrite lookup_delete_ne, lookup_insert_ne, lookup_insert_eq by discriminate.
  reflexivity.
Qed.

(** An instance: a predictor that answers with no value. *)
Lemma empty_prediction_leaves_the_heading_witness :
  globals s_ready !! "model" = Some (VModel 0%nat) /\
  predict w_empty 0%nat
    (VFrame [("Amina Flow", [VFloat 488.43]);
             ("Flotation Column 01 Air Flow", [VFloat 280.13]);
             ("% Iron Concentrate", [VFloat 65.0])]) = inr [] /\
  exists msg,
    rendered_by (try_predict w_empty) s_ready =
    [(Main, Subheader "📈 Resultado de la Predicción");
     (Main, Error (prediction_error_prefix +:+ msg))].
Proof.
  split; [reflexivity |]. split; [reflexivity |].
  exact (proj1 (proj2 (empty_prediction_leaves_the_heading w_empty s_ready 0%nat _
                         eq_refl eq_refl eq_refl))).
Defined.




(* ===================================================================== *)
(** ** Two-decimal formatting *)
(* ===================================================================== *)

(** Rounding to the nearest integer: the error is at most one half. *)
Lemma round_half_even_nearest (n d : Z) :
  0 < d -> 2 * Z.abs (Fmt.round_half_even n d * d - n) <= d.
Proof.
  intros Hd. unfold Fmt.round_half_even.
  pose proof (Z.div_mod n d ltac:(lia)) as Hdm.
  pose proof (Z.mod_pos_bound n d Hd) as Hr.
  destruct (Z.compare_spec (2 * (n mod d)) d) as [Heq|Hlt|Hgt];
    [destruct (Z.even (n / d)) | |]; nia.
Qed.

(** A tie goes to the even neighbour. *)
Lemma round_half_even_tie (n d : Z) :
  0 < d -> 2 * (n mod d) = d -> Z.even (Fmt.round_half_even n d) = true.
Proof.
  intros Hd Htie. unfold Fmt.round_half_even.
  rewrite Htie, Z.compare_refl.
  destruct (Z.even (n / d)) eqn:He; [exact He |].
  rewrite Z.even_add, He. reflexivity.
Qed.


(** The hundredths printed for [m * 2^e] are the nearest to its value. *)
Lemma hundredths_nearest (m : positive) (e : Z) :
  (0 <= e -> Fmt.hundredths m e = 100 * (Z.pos m * 2 ^ e)) /\
  (e < 0 -> 2 * Z.abs (Fmt.hundredths m e * 2 ^ (- e) - 100 * Z.pos m) <= 2 ^ (- e)).
Proof.
  unfold Fmt.hundredths. split; intros He.
  - destruct (Z.leb_spec 0 e); lia.
  - destruct (Z.leb_spec 0 e); [lia |].
    replace (100 * Z.pos m) with (Z.pos m * 100) by lia.
    apply round_half_even_nearest. apply Z.pow_pos_nonneg; lia.
Qed.

Lemma hundredths_nonneg (m : positive) (e : Z) : 0 <= Fmt.hundredths m e.
Proof.
  unfold Fmt.hundredths. destruct (Z.leb_spec 0 e) as [He|He].
  - apply Z.mul_nonneg_nonneg; [lia | apply Z.pow_nonneg; lia].
  - assert (Hd : 0 < 2 ^ (- e)) by (apply Z.pow_pos_nonneg; lia).
    unfold Fmt.round_half_even.
    assert (Hq : 0 <= Z.pos m * 100 / 2 ^ (- e)) by (apply Z.div_pos; lia).
    destruct (Z.compare _ _); [destruct (Z.even _) | |]; lia.
Qed.








(** X11. For a finite non-zero float [m * 2^e] with sign [neg], the text
    that [:.2f] puts in the success message of line 96 is the sign, then a
    number [h] of hundredths written as integer part, point and two digits,
    where [h] is the multiple of 0.01 nearest to the value: the value
    itself when [e >= 0], within half a hundredth otherwise, and even on a
    tie. *)
Theorem format_2f_is_nearest (x : float) (neg : bool) (m : positive) (e : Z) :
  Prim2SF x = S754_finite neg m e ->
  exists h : Z,
    Fmt.format_2f x =
      Fmt.sign neg +:+ Fmt.decimal (h / 100) +:+ "." +:+
      String (Fmt.digit (h mod 100 / 10)) (String (Fmt.digit (h mod 10)) "") /\
    0 <= h /\
    (0 <= e -> h = 100 * (Z.pos m * 2 ^ e)) /\
    (e < 0 -> 2 * Z.abs (h * 2 ^ (- e) - 100 * Z.pos m) <= 2 ^ (- e)) /\
    (e < 0 -> 2 * ((Z.pos m * 100) mod 2 ^ (- e)) = 2 ^ (- e) -> Z.even h = true).
Proof.
  intros Hx. exists (Fmt.hundredths m e).
  destruct (hundredths_nearest m e) as [Hexact Hnear].
  split; [unfold Fmt.format_2f; rewrite Hx; reflexivity |].
  split; [apply hundredths_nonneg |]. split; [exact Hexact |].
  split; [exact Hnear |].
  intros He Htie. unfold Fmt.hundredths.
  destruct (Z.leb_spec 0 e); [lia |].
  apply round_half_even_tie; [apply Z.pow_pos_nonneg; lia | exact Htie].
Qed.

(** An instance: 0.125 lies halfway between 0.12 and 0.13 and is printed
    0.12. *)
Lemma format_2f_is_nearest_witness :
  Prim2SF 0.125 = S754_finite false 4503599627370496 (-55) /\
  Fmt.format_2f 0.125 = "0.12" /\
  exists h : Z,
    Fmt.format_2f 0.125 =
      Fmt.sign false +:+ Fmt.decimal (h / 100) +:+ "." +:+
      String (Fmt.digit (h mod 100 / 10)) (String (Fmt.digit (h mod 10)) "") /\
    0 <= h.
Proof.
  split; [reflexivity |]. split; [reflexivity |].
  destruct (format_2f_is_nearest 0.125 false 4503599627370496 (-55) eq_refl)
    as (h & H1 & H2 & _).
  exists h. split; [exact H1 | exact H2].
Defined.

(* ===================================================================== *)
(** ** Further properties of the memo table *)
(* ===================================================================== *)

(** A run that finds the model path in the memo table leaves the process as
    it was. *)
Lemma run_on_hit (w : world) (p : process) (entry : pyval * list placed) :
  proc_cache p !! model_file = Some entry ->
  loader_call w p =
    (Ok (fst entry), set_page (setup_page ++ snd entry) (before_load p)) /\
  after (snd (run w p)) = p.
Proof.
  intros Hc. destruct entry as [v shown].
  assert (Hl : loader_call w p =
               (Ok v, set_page (setup_page ++ shown) (before_load p))).
  { unfold loader_call. apply load_model_hit. exact Hc. }
  split; [exact Hl |].
  rewrite run_process, Hl. destruct p; reflexivity.
Qed.

Lemma reruns_on_hit (ws : list world) (p : process) (entry : pyval * list placed) :
  proc_cache p !! model_file = Some entry ->
  reruns ws p = p.
Proof.
  intros Hc. induction ws as [|w ws IH]; [reflexivity |].
  cbn [reruns]. rewrite (proj2 (run_on_hit w p entry Hc)). exact IH.
Qed.

(** A run that misses the memo table, by what the load does. *)
Lemma run_on_miss (w : world) (p : process) :
  proc_cache p !! model_file = None ->
  after (snd (run w p)) =
  match loads_as w model_file with
  | inr entry =>
      Process (<[model_file := entry]> (proc_cache p))
              (proc_log p ++ [JoblibLoad model_file])
  | inl _ => Process (proc_cache p) (proc_log p ++ [JoblibLoad model_file])
  end /\
  page (snd (loader_call w p)) =
  match loads_as w model_file with
  | inr entry => setup_page ++ snd entry
  | inl _ => setup_page
  end /\
  fst (loader_call w p) =
  match loads_as w model_file with
  | inr entry => Ok (fst entry)
  | inl e => Raise e
  end.
Proof.
  intros Hc.
  assert (Hl := load_model_first w model_file (before_load p) Hc eq_refl).
  fold (loader_call w p) in Hl. rewrite run_process, Hl.
  destruct (loads_as w model_file) as [e|[v shown]]; repeat split; reflexivity.
Qed.

(** X4. A run that finds an entry for the model path in the memo table
    binds [model] to the stored value, does not call [joblib.load], and
    leaves the memo table and the call log exactly as they were, whatever
    the files have become. *)
Theorem cached_run_leaves_the_process (w : world) (p : process)
    (v : pyval) (shown : list placed) :
  proc_cache p !! model_file = Some (v, shown) ->
  fst (loader_call w p) = Ok v /\
  proc_cache (after (snd (run w p))) = proc_cache p /\
  proc_log (after (snd (run w p))) = proc_log p /\
  forall ws, reruns (w :: ws) p = p.
Proof.
  intros Hc. destruct (run_on_hit w p (v, shown) Hc) as [Hl Ha].
  split; [rewrite Hl; reflexivity |]. rewrite Ha.
  split; [reflexivity |]. split; [reflexivity |].
  intros ws. apply (reruns_on_hit (w :: ws) p (v, shown) Hc).
Qed.

(** An instance: the process a first run with the model file leaves, run
    again when the file has gone. *)
Lemma cached_run_leaves_the_process_witness :
  let warm := after (snd (run w_minimums fresh_process)) in
  proc_cache warm !! model_file = Some (VModel 0%nat, []) /\
  fst (loader_call w_absent warm) = Ok (VModel 0%nat) /\
  proc_log (after (snd (run w_absent warm))) = [JoblibLoad model_file].
Proof.
  intros warm.
  assert (Hc : proc_cache warm !! model_file = Some (VModel 0%nat, []))
    by reflexivity.
  destruct (cached_run_leaves_the_process w_absent warm _ _ Hc)
    as (H1 & _ & H3 & _).
  split; [exact Hc |]. split; [exact H1 |]. rewrite H3. reflexivity.
Defined.

(** X5. The [None] that [load_model] returns for an absent file is stored
    like any result: once a first run found no file, in every later run of
    the process, after any number of reruns and even when the file is there
    by then, line 28 gets [None] from the memo table and shows the same
    error, and [joblib.load] is never called again.  Such a run then stops
    at the slider of line 38. *)
Theorem absent_model_stays_cached (w w' : world) (ws : list world) :
  fs w model_file = Missing ->
  let p := reruns ws (after (snd (run w fresh_process))) in
  fst (loader_call w' p) = Ok VNone /\
  page (snd (loader_call w' p)) =
    setup_page ++ [(Main, Error (not_found_message model_file))] /\
  globals (snd (run w' p)) !! "model" = Some VNone /\
  (exists e, fst (run w' p) = Raise e /\ exn_cls e = StreamlitAPIException) /\
  loads_of model_file (io_log (snd (run w' p))) = 1%nat.
Proof.
  intros Hfs p.
  destruct (run_on_miss w fresh_process eq_refl) as (Ha & _ & _).
  unfold loads_as in Ha. rewrite Hfs in Ha.
  set (p1 := after (snd (run w fresh_process))) in *.
  assert (Hc : proc_cache p1 !! model_file =
               Some (VNone, [(Main, Error (not_found_message model_file))]))
    by (rewrite Ha; reflexivity).
  assert (Hp : p = p1) by (subst p; apply (reruns_on_hit ws p1 _ Hc)).
  rewrite Hp. destruct (run_on_hit w' p1 _ Hc) as [Hl Hafter].
  split; [rewrite Hl; reflexivity |].
  split; [rewrite Hl; reflexivity |].
  rewrite (run_loaded w' p1 VNone) by (rewrite Hl; reflexivity).
  cbn [fst snd globals io_log].
  split; [reflexivity |].
  split; [exists slider_rejection; split; reflexivity |].
  rewrite Hl. cbn [snd io_log set_page before_load]. rewrite Ha. reflexivity.
Qed.

(** An instance: the file is absent on the first run and present on the
    third. *)
Lemma absent_model_stays_cached_witness :
  fs w_absent model_file = Missing /\
  fs w_minimums model_file = Artifact 0%nat /\
  fst (loader_call w_minimums
         (reruns [w_absent] (after (snd (run w_absent fresh_process))))) = Ok VNone.
Proof.
  split; [reflexivity |]. split; [reflexivity |].
  exact (proj1 (absent_model_stays_cached w_absent w_minimums [w_absent] eq_refl)).
Defined.

Lemma load_model_keeps_entries (w : world) (path q : string) (s : state)
    (entry : pyval * list placed) :
  resource_cache s !! q = Some entry ->
  resource_cache (snd (load_model w path s)) !! q = Some entry.
Proof.
  intros Hq.
  destruct (resource_cache s !! path) as [[v shown]|] eqn:Hc.
  - rewrite (load_model_hit _ _ _ _ _ Hc). exact Hq.
  - assert (Hne : path <> q) by (intros ->; congruence).
    rewrite (load_model_miss _ _ _ Hc), load_model_body_eq.
    destruct (fs w path) as [| |e|m]; cbn.
    + rewrite lookup_insert_ne by exact Hne. exact Hq.
    + exact Hq.
    + destruct (is_FileNotFoundError e); cbn.
      * rewrite lookup_insert_ne by exact Hne. exact Hq.
      * exact Hq.
    + rewrite lookup_insert_ne by exact Hne. exact Hq.
Qed.

Lemma run_keeps_entries (w : world) (p : process) (q : string)
    (entry : pyval * list placed) :
  proc_cache p !! q = Some entry ->
  proc_cache (after (snd (run w p))) !! q = Some entry.
Proof.
  intros Hq. rewrite run_process. unfold loader_call. cbn [after proc_cache].
  apply load_model_keeps_entries. exact Hq.
Qed.

(** X6. The memo table only grows: an entry, once stored under a path, is
    never replaced or removed, neither by a later [load_model] of any path
    nor by any number of later runs. *)
Theorem memo_entries_are_kept (w : world) (path q : string) (s : state)
    (entry : pyval * list placed) (ws : list world) (p : process) :
  (resource_cache s !! q = Some entry ->
   resource_cache (snd (load_model w path s)) !! q = Some entry) /\
  (proc_cache p !! q = Some entry ->
   proc_cache (reruns ws p) !! q = Some entry).
Proof.
  split; [apply load_model_keeps_entries |].
  revert p. induction ws as [|w1 ws IH]; intros p Hq; [exact Hq |].
  cbn [reruns]. apply IH, run_keeps_entries, Hq.
Qed.

(** An instance: the entry of the model file survives the load of another
    path and two more runs. *)
Lemma memo_entries_are_kept_witness :
  let warm := after (snd (run w_minimums fresh_process)) in
  proc_cache warm !! model_file = Some (VModel 0%nat, []) /\
  resource_cache (snd (load_model w_absent "other.joblib" (start warm)))
    !! model_file = Some (VModel 0%nat, []) /\
  proc_cache (reruns [w_absent; w_unreadable] warm) !! model_file =
    Some (VModel 0%nat, []).
Proof.
  intros warm.
  assert (Hc : proc_cache warm !! model_file = Some (VModel 0%nat, []))
    by reflexivity.
  destruct (memo_entries_are_kept w_absent "other.joblib" model_file (start warm)
              (VModel 0%nat, []) [w_absent; w_unreadable] warm) as [H1 H2].
  split; [exact Hc |]. split; [exact (H1 Hc) | exact (H2 Hc)].
Defined.

Lemma loads_of_repeat (path : string) (l : list io_call) (n : nat) :
  loads_of path (l ++ repeat (JoblibLoad path) n) = (loads_of path l + n)%nat.
Proof.
  unfold loads_of. rewrite List.filter_app, List.length_app. f_equal.
  induction n as [|n IH]; [reflexivity |].
  cbn. rewrite String.eqb_refl. cbn. rewrite IH. reflexivity.
Qed.

Lemma reruns_failing (w : world) (e : exn) (n : nat) (p : process) :
  loads_as w model_file = inl e ->
  proc_cache p !! model_file = None ->
  reruns (repeat w n) p =
  Process (proc_cache p) (proc_log p ++ repeat (JoblibLoad model_file) n).
Proof.
  intros Hl. revert p. induction n as [|n IH]; intros p Hc.
  - cbn. rewrite app_nil_r. destruct p; reflexivity.
  - cbn [repeat reruns].
    destruct (run_on_miss w p Hc) as (Ha & _ & _). rewrite Hl in Ha.
    rewrite Ha, IH by exact Hc. cbn [proc_cache proc_log].
    rewrite <- app_assoc. reflexivity.
Qed.

(** X7. A load that raises stores nothing.  When the model file makes
    [load_model] raise (a file that cannot be read, or one that fails to
    deserialize), every run stops at line 28 with that exception, with only
    the page configuration done and [model] unbound, and every rerun calls
    [joblib.load] again: after [n] runs it has run [n] times and the memo
    table is still empty. *)
Theorem failing_load_is_retried (w : world) (e : exn) (n : nat) :
  loads_as w model_file = inl e ->
  let p := reruns (repeat w n) fresh_process in
  proc_cache p = ∅ /\
  loads_of model_file (proc_log p) = n /\
  fst (run w p) = Raise e /\
  page (snd (run w p)) = setup_page /\
  globals (snd (run w p)) !! "model" = None /\
  loads_of model_file (io_log (snd (run w p))) = S n.
Proof.
  intros Hl p.
  assert (Hp : p = Process ∅ (repeat (JoblibLoad model_file) n)).
  { subst p. rewrite (reruns_failing w e n fresh_process Hl eq_refl). reflexivity. }
  rewrite Hp. cbn [proc_cache proc_log].
  split; [reflexivity |].
  split; [apply (loads_of_repeat model_file [] n) |].
  set (p' := Process ∅ (repeat (JoblibLoad model_file) n)).
  destruct (run_on_miss w p' eq_refl) as (Ha & Hpg & Hr).
  rewrite Hl in Ha, Hpg, Hr.
  rewrite (run_not_loaded w p' e Hr). cbn [fst snd].
  split; [reflexivity |]. split; [exact Hpg |].
  split; [rewrite loader_call_globals; reflexivity |].
  change (io_log (snd (loader_call w p')))
    with (proc_log (after (snd (loader_call w p')))).
  rewrite <- run_process, Ha. cbn [proc_log p'].
  rewrite loads_of_snoc. f_equal. apply (loads_of_repeat model_file [] n).
Qed.

(** An instance: a model file without read permission, three runs. *)
Lemma failing_load_is_retried_witness :
  loads_as w_unreadable model_file = inl (permission_denied model_file) /\
  loads_of model_file (proc_log (reruns (repeat w_unreadable 3) fresh_process)) = 3%nat /\
  fst (run w_unreadable (reruns (repeat w_unreadable 3) fresh_process)) =
    Raise (permission_denied model_file).
Proof.
  split; [reflexivity |].
  destruct (failing_load_is_retried w_unreadable _ 3 eq_refl)
    as (_ & H2 & H3 & _).
  split; [exact H2 | exact H3].
Defined.
